(** * build_cv.py: the CV document assembler

    A shallow embedding of [build_cv.py].  The script turns one content
    dictionary ([DATA]) into the ordered list of layout blocks (the "story")
    that it hands to the page-layout library, together with a page-footer
    callback.  The layout library and the QR encoder are collaborators: the
    blocks are modelled as the constructor calls the script makes, an image
    of a QR code as the request handed to the encoder.

    The script mutates three local lists ([parts], [right_cells], [story])
    and reads the module-level dictionary [DATA]; all four live in an
    explicit state that is threaded through a small state-and-exception
    monad, so that a missing key raises [KeyError] where the script
    subscripts the dictionary and yields [None] where it calls [.get]. *)

From Stdlib Require Import String Ascii List ZArith QArith Lia Bool.
Import ListNotations.
Local Open Scope string_scope.
Local Open Scope list_scope.

Set Implicit Arguments.
Set Warnings "-register-all".

(** String concatenation, as the f-strings and literals of the script
    build their text; [++] is kept for lists. *)
Infix "+++" := String.append (right associativity, at level 60).

(* ------------------------------------------------------------------ *)
(** ** Strings *)

(** The double-quote character of the [href="..."] attributes. *)
Definition dquote : string := String (ascii_of_nat 34) EmptyString.

(** [sep.join(l)] of Python. *)
Fixpoint join (sep : string) (l : list string) : string :=
  match l with
  | [] => EmptyString
  | [x] => x
  | x :: rest => x +++ sep +++ join sep rest
  end.

(** Truth value of a string: empty is false. *)
Definition str_truthy (s : string) : bool :=
  match s with
  | EmptyString => false
  | String _ _ => true
  end.

(** Truth value of [d.get(key)] for a string field: [None] and the empty
    string are false. *)
Definition truthy (o : option string) : bool :=
  match o with
  | Some s => str_truthy s
  | None => false
  end.

(* ------------------------------------------------------------------ *)
(** ** Units, colours and paragraph styles *)

(** Lengths are in points.  [mm] is 72/25.4 points; the script computes
    with floats, the model with the exact rational. *)
Definition mm : Q := 360 # 127.

Definition A4 : Q * Q := (210 * mm, 297 * mm)%Q.

Inductive Color :=
| HexColor (hex : string)
| grey
| black.

Definition ACCENT : Color := HexColor "#0B7A75".
Definition BASE_FONT : string := "Helvetica".
Definition BOLD_FONT : string := "Helvetica-Bold".

Record ParagraphStyle := {
  fontName : string;
  fontSize : Q;
  leading : Q;
  leftIndent : Q;
  bulletIndent : Q;
  spaceBefore : Q;
  spaceAfter : Q;
  textColor : Color
}.

(** The six styles the script adds to the style sheet, by name. *)
Inductive StyleName :=
| NameLine | SubLine | H2Accent | BodyMain | BulletItem | SmallNote.

Definition styles (n : StyleName) : ParagraphStyle :=
  match n with
  | NameLine =>
      {| fontName := BOLD_FONT; fontSize := 20; leading := 23;
         leftIndent := 0; bulletIndent := 0; spaceBefore := 0;
         spaceAfter := 0; textColor := black |}
  | SubLine =>
      {| fontName := BASE_FONT; fontSize := 11; leading := 14;
         leftIndent := 0; bulletIndent := 0; spaceBefore := 0;
         spaceAfter := 0; textColor := grey |}
  | H2Accent =>
      {| fontName := BOLD_FONT; fontSize := 25 # 2; leading := 16;
         leftIndent := 0; bulletIndent := 0; spaceBefore := 8;
         spaceAfter := 4; textColor := ACCENT |}
  | BodyMain =>
      {| fontName := BASE_FONT; fontSize := 21 # 2; leading := 14;
         leftIndent := 0; bulletIndent := 0; spaceBefore := 0;
         spaceAfter := 0; textColor := black |}
  | BulletItem =>
      {| fontName := BASE_FONT; fontSize := 21 # 2; leading := 14;
         leftIndent := 10; bulletIndent := 0; spaceBefore := 0;
         spaceAfter := 0; textColor := black |}
  | SmallNote =>
      {| fontName := BASE_FONT; fontSize := 19 # 2; leading := 12;
         leftIndent := 0; bulletIndent := 0; spaceBefore := 0;
         spaceAfter := 0; textColor := grey |}
  end.

(* ------------------------------------------------------------------ *)
(** ** Layout blocks *)

Inductive ErrorCorrection := ERROR_CORRECT_L | ERROR_CORRECT_M
                           | ERROR_CORRECT_Q | ERROR_CORRECT_H.

(** What [make_qr] asks of the QR encoder: the symbol parameters, the
    payload given to [add_data], and the colours of [make_image]. *)
Record QRCode := {
  version : option Z;
  error_correction : ErrorCorrection;
  box_size : Z;
  border : Z;
  qr_data : string;
  fill_color : string;
  back_color : string
}.

Inductive ImageSource :=
| PNGBytes (qr : QRCode)      (* the in-memory PNG that [make_qr] returns *)
| Filename (path : string).

(** Cell commands of a table style; a command applies to the cells of the
    rectangle from (column, row) [start] to (column, row) [stop]. *)
Inductive CellOp :=
| VALIGN (v : string)
| ALIGN (v : string)
| LEFTPADDING (n : Q)
| RIGHTPADDING (n : Q)
| TOPPADDING (n : Q)
| BOTTOMPADDING (n : Q).

Record TableCmd := Cmd {
  cmd_op : CellOp;
  cmd_start : Z * Z;
  cmd_stop : Z * Z
}.

Definition all_cells (op : CellOp) : TableCmd := Cmd op (0, 0)%Z (-1, -1)%Z.

(** The blocks are the constructor calls of the script.  What the layout
    library does with them (parsing the markup of a paragraph, reading an
    image file, flowing the blocks onto pages) is outside the model. *)
Inductive Flowable :=
| Paragraph (text : string) (style : StyleName)
| Spacer (width height : Q)
| Image (src : ImageSource) (width height : Q)
| KeepInFrame (maxWidth maxHeight : Q) (content : list Flowable)
              (hAlign : string)
| Table (data : list (list Flowable)) (colWidths : list (option Q))
        (tstyle : list TableCmd).

(* ------------------------------------------------------------------ *)
(** ** The content dictionary *)

(** A field is [None] when its key is absent from the dictionary. *)
Record Job := {
  company : option string;
  role : option string;
  dates : option string;
  bullets : option (list string)
}.

(** [links] keeps the insertion order of the dictionary, which is the order
    [.items()] yields. *)
Record CV := {
  name : option string;
  title : option string;
  location : option string;
  email : option string;
  phone : option string;
  summary : option string;
  experience : option (list Job);
  tech : option string;
  providers : option string;
  education : option (list string);
  languages : option string;
  links : option (list (string * string))
}.

(* ------------------------------------------------------------------ *)
(** ** Configuration and content as shipped *)

Definition LANDING_URL : string := "https://apschram.github.io/curriculum-vitae/".
Definition PDF_URL : string :=
  "https://apschram.github.io/curriculum-vitae/Alexander_Schram_CV.pdf".
Definition LINKEDIN_URL : string :=
  "https://www.linkedin.com/in/alexander-schram-17ab6265/".
Definition GITHUB_URL : string := "https://github.com/apschram/curriculum-vitae".
Definition OUTPUT_PDF : string := "Alexander_Schram_CV.pdf".

Module Shipped.

(** [HEADSHOT_PATH = None]: no headshot. *)
Definition HEADSHOT_PATH : option string := None.

Definition job (c r d : string) (bs : list string) : Job :=
  {| company := Some c; role := Some r; dates := Some d;
     bullets := Some bs |}.

Definition DATA : CV := {|
  name := Some "Alexander Pieter Schram";
  title := Some "Sports Analytics · Tracking & Modeling";
  location := Some "Amsterdam, NL";
  email := Some "apschram@gmail.com";
  phone := Some "+31 6 52 36 73 57";
  summary := Some
    ("Sports data leader focused on tracking analytics, model design, and delivery. "
     +++ "Built end-to-end pipelines and coach-facing tools; values reproducibility and measurable impact.");
  experience := Some [
    job "PFF" "Sr. Manager Team Services & Analysis" "2021–present"
      [ "Led analytics delivery for pro clubs across recruitment and performance.";
        "Built tracking×event fusion workflows and physical metrics reporting.";
        "Improved comms through concise visuals and field-relevant language." ];
    job "FC Cincinnati" "Director of Analytics & Strategy" "2019–2021"
      [ "Built the analytics function across player evaluation and match analysis.";
        "Delivered coach-facing products and recruitment decision support." ];
    job "remiqz" "Manager Data Science & Lead Developer" "2017–2019"
      [ "Led data science projects and productized analytics pipelines." ];
    job "Hypercube" "Consultant" "2014–2017"
      [ "Delivered modeling and analysis for sports/business problems." ];
    job "Veneficus" "Data Intern" "2013"
      [ "Supported data preparation and early-stage modeling." ];
    job "University of Amsterdam" "Research Assistant" "2011–2013"
      [ "Quantitative research support and analysis." ] ];
  tech := Some
    ("Python (pandas, scikit-learn, xgboost), SQL, R, Matplotlib, Shiny, Kalman filters, "
     +++ "ETL, model validation/MAER, experiment design");
  providers := Some
    ("Event: PFF, StatsBomb, Wyscout, Opta, InStat · "
     +++ "Tracking: Second Spectrum, ChyronHego, SkillCorner, Sportlogiq · "
     +++ "GPS: STATSports, Catapult");
  education := Some [
    "MSc Econometrics: Free Track — University of Amsterdam (2014)";
    "BSc Econometrics & Operations Research — University of Amsterdam (2013)" ];
  languages := Some "Dutch (native), English (C2)";
  links := Some [ ("PDF", PDF_URL); ("LinkedIn", LINKEDIN_URL);
                  ("GitHub", GITHUB_URL) ]
|}.

End Shipped.

(* ------------------------------------------------------------------ *)
(** ** The world outside the script *)

Record date := {
  year : Z;
  month : Z;
  day : Z
}.

(** What a run can observe of its environment: the calendar day and which
    paths exist on the file system. *)
Record World := {
  today : date;
  fs_exists : string -> bool
}.

(** [os.path.exists(p)]; the empty path never exists. *)
Definition os_path_exists (w : World) (p : string) : bool :=
  str_truthy p && fs_exists w p.

Definition digit (n : Z) : string :=
  String (ascii_of_N (Z.to_N (48 + n mod 10))) EmptyString.

(** [d.strftime("%Y.%m.%d")]: the year in four digits (every day that
    [date.today()] returns has a four-digit year), the month and the day in
    two. *)
Definition strftime_Ymd (d : date) : string :=
  (digit (year d / 1000) +++ digit (year d / 100) +++ digit (year d / 10)
     +++ digit (year d))
  +++ "." +++ (digit (month d / 10) +++ digit (month d))
  +++ "." +++ (digit (day d / 10) +++ digit (day d)).

(* ------------------------------------------------------------------ *)
(** ** Helpers of the script *)

Definition make_qr (url : string) (box_size : Z) : ImageSource :=
  PNGBytes {| version := None;
              error_correction := ERROR_CORRECT_M;
              box_size := box_size;
              border := 2;
              qr_data := url;
              fill_color := "black";
              back_color := "white" |}.

Inductive CanvasOp :=
| saveState
| setFont (psfontname : string) (size : Q)
| setFillColor (c : Color)
| drawString (x y : Q) (text : string)
| drawRightString (x y : Q) (text : string)
| restoreState.

(** [footer(canvas, doc)]: the drawing operations of one call, in the world
    the call is made in. *)
Definition footer (w : World) : list CanvasOp :=
  let today := strftime_Ymd (today w) in
  let left := "Generated with Python — v" +++ today in
  let right := "© Alexander Schram" in
  [ saveState;
    setFont BASE_FONT 8;
    setFillColor grey;
    drawString (18 * mm) (12 * mm) left;
    drawRightString (fst A4 - 18 * mm) (12 * mm) right;
    restoreState ].

(* ------------------------------------------------------------------ *)
(** ** Document template *)

Record Frame := {
  x1 : Q;
  y1 : Q;
  frame_width : Q;
  frame_height : Q;
  frame_id : string
}.

Record PageTemplate := {
  template_id : string;
  frames : list Frame;
  onPage : World -> list CanvasOp
}.

Record BaseDocTemplate := {
  filename : string;
  pagesize : Q * Q;
  leftMargin : Q;
  rightMargin : Q;
  topMargin : Q;
  bottomMargin : Q;
  pageTemplates : list PageTemplate
}.

(** The call [doc.build(story)]: everything the layout library receives. *)
Record Build := {
  doc : BaseDocTemplate;
  flowables : list Flowable
}.

(* ------------------------------------------------------------------ *)
(** ** State and exceptions *)

(** The module-level dictionary and the three lists [build_pdf] mutates. *)
Record State := {
  DATA : CV;
  parts : list string;
  right_cells : list (list Flowable);
  story : list Flowable
}.

Definition set_parts (v : list string) (s : State) : State :=
  {| DATA := DATA s; parts := v; right_cells := right_cells s;
     story := story s |}.

Definition set_right_cells (v : list (list Flowable)) (s : State) : State :=
  {| DATA := DATA s; parts := parts s; right_cells := v; story := story s |}.

Definition set_story (v : list Flowable) (s : State) : State :=
  {| DATA := DATA s; parts := parts s; right_cells := right_cells s;
     story := v |}.

Inductive exn :=
| KeyError (key : string).

Inductive outcome (A : Type) :=
| Returns (a : A) (s : State)
| Raises (e : exn) (s : State).

Arguments Raises {A} e s.

Definition M (A : Type) : Type := State -> outcome A.

Definition ret {A} (a : A) : M A := fun s => Returns a s.

Definition bind {A B} (m : M A) (k : A -> M B) : M B :=
  fun s =>
    match m s with
    | Returns a s' => k a s'
    | Raises e s' => Raises e s'
    end.

Notation "x <- m ;; k" := (bind m (fun x => k))
  (at level 61, m at next level, right associativity).
Notation "m ;; k" := (bind m (fun _ => k))
  (at level 61, right associativity).

Definition modify (f : State -> State) : M unit := fun s => Returns tt (f s).

Definition gets {A} (f : State -> A) : M A := fun s => Returns (f s) s.

Definition raise {A} (e : exn) : M A := fun s => Raises e s.

(** [if c: body] *)
Definition when (c : bool) (body : M unit) : M unit :=
  if c then body else ret tt.

(** [for x in l: body] *)
Fixpoint for_each {A} (l : list A) (body : A -> M unit) : M unit :=
  match l with
  | [] => ret tt
  | x :: rest => body x ;; for_each rest body
  end.

(** [d[key]] *)
Definition item {D A} (d : D) (key : string) (field : D -> option A) : M A :=
  match field d with
  | Some v => ret v
  | None => raise (KeyError key)
  end.

(** [d.get(key, default)] *)
Definition get_default {D A} (d : D) (field : D -> option A) (default : A) : A :=
  match field d with
  | Some v => v
  | None => default
  end.

(** [DATA[key]] and [DATA.get(key)] *)
Definition DATA_item {A} (key : string) (field : CV -> option A) : M A :=
  d <- gets DATA ;; item d key field.

Definition DATA_get {A} (field : CV -> option A) : M (option A) :=
  d <- gets DATA ;; ret (field d).

Definition parts_append (x : string) : M unit :=
  modify (fun s => set_parts (parts s ++ [x]) s).

Definition right_cells_extend (l : list (list Flowable)) : M unit :=
  modify (fun s => set_right_cells (right_cells s ++ l) s).

Definition story_append (x : Flowable) : M unit :=
  modify (fun s => set_story (story s ++ [x]) s).

Definition story_extend (l : list Flowable) : M unit :=
  modify (fun s => set_story (story s ++ l) s).

(* ------------------------------------------------------------------ *)
(** ** build_pdf *)

(** The markup of a clickable span. *)
Definition link_markup (href label : string) : string :=
  "<link href=" +++ dquote +++ href +++ dquote +++ ">" +++ label +++ "</link>".

(** The body of [for label, url in DATA.get("links", {}).items()]. *)
Definition links_body (entry : string * string) : M unit :=
  let (label, url) := entry in
  when (str_truthy url) (parts_append (link_markup url label)).

(** The body of [for b in job.get("bullets", [])]. *)
Definition bullets_body (b : string) : M unit :=
  story_append (Paragraph ("• " +++ b) BulletItem).

(** The body of [for job in DATA["experience"]]. *)
Definition experience_body (job : Job) : M unit :=
  c <- item job "company" company ;;
  r <- item job "role" role ;;
  d <- item job "dates" dates ;;
  let head := "<b>" +++ c +++ " — " +++ r +++ " (" +++ d +++ ")</b>" in
  story_append (Paragraph head BodyMain) ;;
  for_each (get_default job bullets []) bullets_body ;;
  story_append (Spacer 1 (1 * mm)).

Definition right_tbl_style : list TableCmd :=
  [ all_cells (VALIGN "TOP");
    all_cells (ALIGN "RIGHT");
    all_cells (LEFTPADDING 0);
    all_cells (RIGHTPADDING 0);
    all_cells (TOPPADDING 0);
    all_cells (BOTTOMPADDING 0) ].

Definition header_row_style : list TableCmd :=
  [ all_cells (VALIGN "TOP");
    all_cells (LEFTPADDING 0);
    all_cells (RIGHTPADDING 0);
    all_cells (BOTTOMPADDING 0) ].

Definition two_col_style : list TableCmd :=
  [ all_cells (VALIGN "TOP");
    all_cells (LEFTPADDING 0);
    all_cells (RIGHTPADDING 12);
    all_cells (TOPPADDING 0);
    all_cells (BOTTOMPADDING 0) ].

Section BuildPdf.

(** The optional headshot path of the configuration, and the world the run
    takes place in. *)
Variable HEADSHOT_PATH : option string.
Variable w : World.

(** [if HEADSHOT_PATH and os.path.exists(HEADSHOT_PATH): right_cells += ...] *)
Definition add_headshot : M unit :=
  match HEADSHOT_PATH with
  | Some p =>
      when (str_truthy p && os_path_exists w p)
        (right_cells_extend
           [ [Spacer 1 (2 * mm)];
             [Image (Filename p) (28 * mm) (28 * mm)] ])
  | None => ret tt
  end.

Definition build_pdf (path : string) : M Build :=
  let margin := 18 * mm in
  let frame := {| x1 := margin; y1 := margin;
                  frame_width := fst A4 - 2 * margin;
                  frame_height := snd A4 - 2 * margin;
                  frame_id := "frame" |} in
  let doc := {| filename := path; pagesize := A4;
                leftMargin := 0; rightMargin := 0;
                topMargin := 0; bottomMargin := 0;
                pageTemplates :=
                  [ {| template_id := "page"; frames := [frame];
                       onPage := footer |} ] |} in
  modify (set_story []) ;;

  (* Header: name, title, contacts/links (left) + QR (+ headshot) (right) *)
  name_v <- DATA_item "name" name ;;
  let name_p := Paragraph name_v NameLine in
  title_v <- DATA_item "title" title ;;
  let title_p := Paragraph title_v SubLine in

  modify (set_parts []) ;;
  email_v <- DATA_get email ;;
  when (truthy email_v)
    (e1 <- DATA_item "email" email ;;
     e2 <- DATA_item "email" email ;;
     parts_append (link_markup ("mailto:" +++ e1) e2)) ;;
  phone_v <- DATA_get phone ;;
  when (truthy phone_v)
    (p <- DATA_item "phone" phone ;; parts_append p) ;;
  location_v <- DATA_get location ;;
  when (truthy location_v)
    (l <- DATA_item "location" location ;; parts_append l) ;;
  links_v <- DATA_get links ;;
  for_each (match links_v with Some l => l | None => [] end) links_body ;;
  joined <- gets (fun s => join " · " (parts s)) ;;
  let contact_p := Paragraph joined BodyMain in

  let left_stack := [name_p; title_p; Spacer 1 (2 * mm); contact_p] in
  let left_flow := KeepInFrame 0 0 left_stack "LEFT" in

  (* QR links to the landing page *)
  let qr_img_bio := make_qr LANDING_URL 6 in
  let qr_img := Image qr_img_bio (28 * mm) (28 * mm) in

  modify (set_right_cells [[qr_img]]) ;;
  add_headshot ;;

  cells <- gets right_cells ;;
  let right_tbl := Table cells [Some (30 * mm)] right_tbl_style in
  let header_row :=
    Table [[left_flow; right_tbl]] [None; Some (30 * mm)] header_row_style in

  story_extend [header_row; Spacer 1 (6 * mm)] ;;

  (* Summary *)
  summary_v <- DATA_get summary ;;
  when (truthy summary_v)
    (sm <- DATA_item "summary" summary ;;
     story_extend [ Paragraph "Summary" H2Accent;
                    Paragraph sm BodyMain;
                    Spacer 1 (3 * mm) ]) ;;

  (* Experience *)
  story_append (Paragraph "Experience" H2Accent) ;;
  jobs <- DATA_item "experience" experience ;;
  for_each jobs experience_body ;;

  (* Two-column block: Tech/Education vs Languages/Providers *)
  tech_v <- DATA_item "tech" tech ;;
  education_v <- DATA_item "education" education ;;
  let left_col :=
    [ Paragraph "Technical" H2Accent;
      Paragraph tech_v BodyMain;
      Spacer 1 (2 * mm);
      Paragraph "Education" H2Accent ]
    ++ map (fun it => Paragraph it BodyMain) education_v in
  languages_v <- DATA_item "languages" languages ;;
  providers_v <- DATA_item "providers" providers ;;
  let right_col :=
    [ Paragraph "Languages" H2Accent;
      Paragraph languages_v BodyMain;
      Spacer 1 (2 * mm);
      Paragraph "Data Providers" H2Accent;
      Paragraph providers_v BodyMain ] in

  let left_kif := KeepInFrame 0 0 left_col "LEFT" in
  let right_kif := KeepInFrame 0 0 right_col "LEFT" in

  let two_col := Table [[left_kif; right_kif]] [None; None] two_col_style in

  story_extend [Spacer 1 (4 * mm); two_col; Spacer 1 (6 * mm)] ;;
  story_extend
    [ Paragraph "Generated with Python — links above for PDF · GitHub · LinkedIn."
                SmallNote ] ;;

  final <- gets story ;;
  ret {| doc := doc; flowables := final |}.

End BuildPdf.

(** A run of the script: [build_pdf] entered with the dictionary [d]; the
    three lists are unbound until the function assigns them. *)
Definition initial (d : CV) : State :=
  {| DATA := d; parts := []; right_cells := []; story := [] |}.

(* ------------------------------------------------------------------ *)
(** ** The block list, section by section *)

(** The values of a field that is present and non-empty: none or one. *)
Definition present (o : option string) : list string :=
  match o with
  | Some s => if str_truthy s then [s] else []
  | None => []
  end.

Definition email_entry (e : string) : string :=
  link_markup ("mailto:" +++ e) e.

Definition link_entry (entry : string * string) : string :=
  link_markup (snd entry) (fst entry).

Definition nonempty_url (entry : string * string) : bool :=
  str_truthy (snd entry).

(** The entries of the contact line. *)
Definition contact_entries (d : CV) : list string :=
  map email_entry (present (email d))
  ++ present (phone d)
  ++ present (location d)
  ++ map link_entry (filter nonempty_url (get_default d links [])).

Definition contact_line (d : CV) : string := join " · " (contact_entries d).

Definition qr_img : Flowable :=
  Image (make_qr LANDING_URL 6) (28 * mm) (28 * mm).

(** The rows the headshot adds to the right-hand header stack. *)
Definition headshot_rows (hp : option string) (w : World)
  : list (list Flowable) :=
  match hp with
  | Some p =>
      if os_path_exists w p
      then [ [Spacer 1 (2 * mm)];
             [Image (Filename p) (28 * mm) (28 * mm)] ]
      else []
  | None => []
  end.

(** The rows of the right-hand header stack. *)
Definition header_right_cells (hp : option string) (w : World)
  : list (list Flowable) :=
  [qr_img] :: headshot_rows hp w.

Definition header_row (hp : option string) (w : World) (d : CV) : Flowable :=
  Table
    [ [ KeepInFrame 0 0
          [ Paragraph (get_default d name EmptyString) NameLine;
            Paragraph (get_default d title EmptyString) SubLine;
            Spacer 1 (2 * mm);
            Paragraph (contact_line d) BodyMain ]
          "LEFT";
        Table (header_right_cells hp w) [Some (30 * mm)] right_tbl_style ] ]
    [None; Some (30 * mm)] header_row_style.

Definition summary_blocks (d : CV) : list Flowable :=
  flat_map (fun sm => [ Paragraph "Summary" H2Accent;
                        Paragraph sm BodyMain;
                        Spacer 1 (3 * mm) ])
           (present (summary d)).

Definition job_heading (j : Job) : Flowable :=
  Paragraph ("<b>" +++ get_default j company EmptyString +++ " — "
             +++ get_default j role EmptyString +++ " ("
             +++ get_default j dates EmptyString +++ ")</b>")
            BodyMain.

Definition bullet_block (b : string) : Flowable :=
  Paragraph ("• " +++ b) BulletItem.

(** The blocks of one experience entry. *)
Definition job_blocks (j : Job) : list Flowable :=
  job_heading j :: map bullet_block (get_default j bullets [])
  ++ [Spacer 1 (1 * mm)].

Definition left_col (d : CV) : list Flowable :=
  [ Paragraph "Technical" H2Accent;
    Paragraph (get_default d tech EmptyString) BodyMain;
    Spacer 1 (2 * mm);
    Paragraph "Education" H2Accent ]
  ++ map (fun it => Paragraph it BodyMain) (get_default d education []).

Definition right_col (d : CV) : list Flowable :=
  [ Paragraph "Languages" H2Accent;
    Paragraph (get_default d languages EmptyString) BodyMain;
    Spacer 1 (2 * mm);
    Paragraph "Data Providers" H2Accent;
    Paragraph (get_default d providers EmptyString) BodyMain ].

Definition two_col (d : CV) : Flowable :=
  Table [ [ KeepInFrame 0 0 (left_col d) "LEFT";
            KeepInFrame 0 0 (right_col d) "LEFT" ] ]
        [None; None] two_col_style.

Definition closing_note : Flowable :=
  Paragraph "Generated with Python — links above for PDF · GitHub · LinkedIn."
            SmallNote.

(** The story of a run whose dictionary has every subscripted key. *)
Definition story_of (hp : option string) (w : World) (d : CV) : list Flowable :=
  [header_row hp w d; Spacer 1 (6 * mm)]
  ++ summary_blocks d
  ++ [Paragraph "Experience" H2Accent]
  ++ flat_map job_blocks (get_default d experience [])
  ++ [Spacer 1 (4 * mm); two_col d; Spacer 1 (6 * mm)]
  ++ [closing_note].

(** The keys the script subscripts: [build_pdf] raises [KeyError] when one
    is missing. *)
Definition is_some {A} (o : option A) : bool :=
  match o with Some _ => true | None => false end.

Definition job_complete (j : Job) : bool :=
  is_some (company j) && is_some (role j) && is_some (dates j).

Definition complete (d : CV) : bool :=
  is_some (name d) && is_some (title d)
  && match experience d with
     | Some js => forallb job_complete js
     | None => false
     end
  && is_some (tech d) && is_some (education d)
  && is_some (languages d) && is_some (providers d).

(** All paragraphs of a block, nested ones included, as (text, style). *)
Fixpoint paragraphs (f : Flowable) : list (string * StyleName) :=
  match f with
  | Paragraph t st => [(t, st)]
  | Spacer _ _ => []
  | Image _ _ _ => []
  | KeepInFrame _ _ c _ => flat_map paragraphs c
  | Table rows _ _ => flat_map (flat_map paragraphs) rows
  end.

(** All images of a block, nested ones included, top to bottom. *)
Fixpoint images (f : Flowable) : list ImageSource :=
  match f with
  | Paragraph _ _ => []
  | Spacer _ _ => []
  | Image src _ _ => [src]
  | KeepInFrame _ _ c _ => flat_map images c
  | Table rows _ _ => flat_map (flat_map images) rows
  end.

(** The document template [build_pdf] creates for [path]. *)
Definition doc_of (path : string) : BaseDocTemplate :=
  {| filename := path; pagesize := A4;
     leftMargin := 0; rightMargin := 0; topMargin := 0; bottomMargin := 0;
     pageTemplates :=
       [ {| template_id := "page";
            frames := [ {| x1 := 18 * mm; y1 := 18 * mm;
                           frame_width := fst A4 - 2 * (18 * mm);
                           frame_height := snd A4 - 2 * (18 * mm);
                           frame_id := "frame" |} ];
            onPage := footer |} ] |}.

(** The state [build_pdf] leaves behind when it returns. *)
Definition final (hp : option string) (w : World) (s : State) : State :=
  {| DATA := DATA s;
     parts := contact_entries (DATA s);
     right_cells := header_right_cells hp w;
     story := story_of hp w (DATA s) |}.

Definition state_of {A} (o : outcome A) : State :=
  match o with
  | Returns _ s => s
  | Raises _ s => s
  end.

(** A computation that leaves [DATA] as it found it, whether it returns
    or raises. *)
Definition reads_only {A} (m : M A) : Prop :=
  forall s, DATA (state_of (m s)) = DATA s.

(* ------------------------------------------------------------------ *)
(** ** Reading a story *)

(** The rows of the right-hand stack of the header row that opens a
    story. *)
Definition right_stack (blocks : list Flowable) : list (list Flowable) :=
  match blocks with
  | Table [[_; Table rows _ _]] _ _ :: _ => rows
  | _ => []
  end.

(** The text of the contact paragraph: the last block of the left-hand
    stack of the header row. *)
Definition contact_text (blocks : list Flowable) : option string :=
  match blocks with
  | Table [[KeepInFrame _ _ [_; _; _; Paragraph t _] _; _]] _ _ :: _ => Some t
  | _ => None
  end.

Definition style_eqb (a b : StyleName) : bool :=
  match a, b with
  | NameLine, NameLine | SubLine, SubLine | H2Accent, H2Accent
  | BodyMain, BodyMain | BulletItem, BulletItem | SmallNote, SmallNote => true
  | _, _ => false
  end.

(** A paragraph block of the given style. *)
Definition has_style (st : StyleName) (f : Flowable) : bool :=
  match f with
  | Paragraph _ st' => style_eqb st st'
  | _ => false
  end.



(** How the layout library resolves the style of a table cell: every cell
    starts from the default style, and each command of the table style, in
    order, overwrites one attribute on the cells of its rectangle; a
    negative column or row index counts from the end. *)
Record CellStyle := {
  leftPadding : Q;
  rightPadding : Q;
  topPadding : Q;
  bottomPadding : Q;
  valign : string;
  alignment : string
}.

Definition default_cell_style : CellStyle :=
  {| leftPadding := 6; rightPadding := 6; topPadding := 3;
     bottomPadding := 3; valign := "BOTTOM"; alignment := "LEFT" |}.

Definition set_cell_style (op : CellOp) (c : CellStyle) : CellStyle :=
  match op with
  | VALIGN v =>
      {| leftPadding := leftPadding c; rightPadding := rightPadding c;
         topPadding := topPadding c; bottomPadding := bottomPadding c;
         valign := v; alignment := alignment c |}
  | ALIGN v =>
      {| leftPadding := leftPadding c; rightPadding := rightPadding c;
         topPadding := topPadding c; bottomPadding := bottomPadding c;
         valign := valign c; alignment := v |}
  | LEFTPADDING n =>
      {| leftPadding := n; rightPadding := rightPadding c;
         topPadding := topPadding c; bottomPadding := bottomPadding c;
         valign := valign c; alignment := alignment c |}
  | RIGHTPADDING n =>
      {| leftPadding := leftPadding c; rightPadding := n;
         topPadding := topPadding c; bottomPadding := bottomPadding c;
         valign := valign c; alignment := alignment c |}
  | TOPPADDING n =>
      {| leftPadding := leftPadding c; rightPadding := rightPadding c;
         topPadding := n; bottomPadding := bottomPadding c;
         valign := valign c; alignment := alignment c |}
  | BOTTOMPADDING n =>
      {| leftPadding := leftPadding c; rightPadding := rightPadding c;
         topPadding := topPadding c; bottomPadding := n;
         valign := valign c; alignment := alignment c |}
  end.

Definition from_end (n i : Z) : Z := if (i <? 0)%Z then (i + n)%Z else i.

Definition covers (cmd : TableCmd) (nrows ncols row col : Z) : bool :=
  ((from_end ncols (fst (cmd_start cmd)) <=? col)
   && (col <=? from_end ncols (fst (cmd_stop cmd)))
   && (from_end nrows (snd (cmd_start cmd)) <=? row)
   && (row <=? from_end nrows (snd (cmd_stop cmd))))%Z.

Definition cell_style (cmds : list TableCmd) (nrows ncols row col : Z)
  : CellStyle :=
  fold_left
    (fun c cmd =>
       if covers cmd nrows ncols row col then set_cell_style (cmd_op cmd) c
       else c)
    cmds default_cell_style.

(** The style of the cell at ([row], [col]) of a table block. *)
Definition table_cell_style (f : Flowable) (row col : Z) : option CellStyle :=
  match f with
  | Table data _ cmds =>
      Some (cell_style cmds (Z.of_nat (length data))
                       (Z.of_nat (length (hd [] data))) row col)
  | _ => None
  end.

(** The texts of the section headings of a story (the paragraphs of style
    [H2Accent]), nested ones included, top to bottom. *)
Definition section_headings (blocks : list Flowable) : list string :=
  map fst (filter (fun p => style_eqb (snd p) H2Accent)
                  (flat_map paragraphs blocks)).

(* ------------------------------------------------------------------ *)
(** ** Dictionaries and worlds to run the script on *)

(** A world with no files. *)
Definition bare_world : World :=
  {| today := {| year := 2025; month := 9; day := 7 |};
     fs_exists := fun _ => false |}.

(** The shipped dictionary with every section emptied: an empty summary,
    no experience entry, empty skills, education, languages and
    providers. *)
Definition empty_sections : CV :=
  {| name := name Shipped.DATA;
     title := title Shipped.DATA;
     location := location Shipped.DATA;
     email := email Shipped.DATA;
     phone := phone Shipped.DATA;
     summary := Some EmptyString;
     experience := Some [];
     tech := Some EmptyString;
     providers := Some EmptyString;
     education := Some [];
     languages := Some EmptyString;
     links := links Shipped.DATA |}.

(** The shipped dictionary with the role of its second experience entry
    and its providers removed. *)
Definition missing_role : CV :=
  {| name := name Shipped.DATA;
     title := title Shipped.DATA;
     location := location Shipped.DATA;
     email := email Shipped.DATA;
     phone := phone Shipped.DATA;
     summary := summary Shipped.DATA;
     experience :=
       Some [ Shipped.job "PFF" "Analyst" "2021" [];
              {| company := Some "FC Cincinnati"; role := None;
                 dates := Some "2019"; bullets := None |} ];
     tech := tech Shipped.DATA;
     providers := None;
     education := education Shipped.DATA;
     languages := languages Shipped.DATA;
     links := links Shipped.DATA |}.

(** A dictionary with the subscripted keys only: no contact field, no
    summary, no link, one experience entry without bullets. *)
Definition required_only : CV :=
  {| name := Some "A. Person";
     title := Some "Analyst";
     location := None;
     email := None;
     phone := None;
     summary := None;
     experience :=
       Some [ {| company := Some "Club"; role := Some "Scout";
                 dates := Some "2020"; bullets := None |} ];
     tech := Some "SQL";
     providers := Some "Opta";
     education := Some [];
     languages := Some "English";
     links := None |}.

(* ------------------------------------------------------------------ *)
(** ** Outcomes, missing keys and optional keys *)

(** What a call gives its caller: the value it returns or the exception it
    raises. *)
Definition result {A} (o : outcome A) : A + exn :=
  match o with
  | Returns a _ => inl a
  | Raises e _ => inr e
  end.

Definition with_DATA (d : CV) (s : State) : State :=
  {| DATA := d; parts := parts s; right_cells := right_cells s;
     story := story s |}.

(** The first key of an experience entry that the heading line subscripts
    and does not find: company, then role, then dates. *)
Definition job_missing (j : Job) : option string :=
  match company j, role j, dates j with
  | None, _, _ => Some "company"
  | Some _, None, _ => Some "role"
  | Some _, Some _, None => Some "dates"
  | Some _, Some _, Some _ => None
  end.

Fixpoint jobs_missing (l : list Job) : option string :=
  match l with
  | [] => None
  | j :: rest =>
      match job_missing j with
      | Some k => Some k
      | None => jobs_missing rest
      end
  end.

(** The first subscripted key that is missing, in the order in which
    [build_pdf] subscripts them. *)
Definition first_missing (d : CV) : option string :=
  match name d with
  | None => Some "name"
  | Some _ =>
  match title d with
  | None => Some "title"
  | Some _ =>
  match experience d with
  | None => Some "experience"
  | Some jobs =>
  match jobs_missing jobs with
  | Some k => Some k
  | None =>
  match tech d with
  | None => Some "tech"
  | Some _ =>
  match education d with
  | None => Some "education"
  | Some _ =>
  match languages d with
  | None => Some "languages"
  | Some _ =>
  match providers d with
  | None => Some "providers"
  | Some _ => None
  end end end end end end end end.

(** An experience entry, and a dictionary, with every absent optional key
    filled in with the empty value: the keys read with [.get]. *)
Definition fill_job (j : Job) : Job :=
  {| company := company j; role := role j; dates := dates j;
     bullets := Some (get_default j bullets []) |}.

Definition fill_optional (d : CV) : CV :=
  {| name := name d;
     title := title d;
     location := Some (get_default d location EmptyString);
     email := Some (get_default d email EmptyString);
     phone := Some (get_default d phone EmptyString);
     summary := Some (get_default d summary EmptyString);
     experience := option_map (map fill_job) (experience d);
     tech := tech d;
     providers := providers d;
     education := education d;
     languages := languages d;
     links := Some (get_default d links []) |}.

(** The number of top-level blocks of the story of a complete
    dictionary. *)
Definition block_count (d : CV) : nat :=
  (2 + (if truthy (summary d) then 3 else 0) + 1
   + list_sum (map (fun j => 2 + length (get_default j bullets []))
                   (get_default d experience []))
   + 4)%nat.

(** The right-hand table of the header row that opens a story. *)
Definition right_tbl_of (blocks : list Flowable) : option Flowable :=
  match blocks with
  | Table [[_; t]] _ _ :: _ => Some t
  | _ => None
  end.

(** The left-hand stack of the header row that opens a story. *)
Definition left_stack_of (blocks : list Flowable) : list Flowable :=
  match blocks with
  | Table [[KeepInFrame _ _ stack _; _]] _ _ :: _ => stack
  | _ => []
  end.

(** Top-level block kinds. *)
Definition is_table (f : Flowable) : bool :=
  match f with Table _ _ _ => true | _ => false end.

Definition is_spacer (f : Flowable) : bool :=
  match f with Spacer _ _ => true | _ => false end.

Definition is_paragraph (f : Flowable) : bool :=
  match f with Paragraph _ _ => true | _ => false end.

(* ------------------------------------------------------------------ *)
(** ** The loops *)

Lemma for_each_links (l : list (string * string)) (s : State) :
  for_each l links_body s
  = Returns tt (set_parts (parts s ++ map link_entry (filter nonempty_url l)) s).
Proof.
  revert s; induction l as [|[label url] l IH]; intros s.
  - destruct s; simpl. unfold ret, set_parts; simpl. now rewrite app_nil_r.
  - simpl. unfold bind, links_body, nonempty_url. simpl.
    destruct (str_truthy url); simpl.
    + unfold parts_append, modify. rewrite IH. destruct s; unfold set_parts; simpl.
      now rewrite <- app_assoc.
    + unfold ret. rewrite IH. reflexivity.
Qed.

Lemma for_each_bullets (l : list string) (s : State) :
  for_each l bullets_body s
  = Returns tt (set_story (story s ++ map bullet_block l) s).
Proof.
  revert s; induction l as [|b l IH]; intros s.
  - destruct s; simpl. unfold ret, set_story; simpl. now rewrite app_nil_r.
  - simpl. unfold bind, bullets_body, story_append, modify. rewrite IH.
    destruct s; unfold set_story; simpl. now rewrite <- app_assoc.
Qed.

Lemma experience_body_returns (j : Job) (s : State) :
  job_complete j = true ->
  experience_body j s = Returns tt (set_story (story s ++ job_blocks j) s).
Proof.
  destruct j as [[c|] [r|] [d|] bs]; try discriminate. intros _.
  unfold experience_body, bind, item, ret, story_append, modify. simpl.
  rewrite for_each_bullets. destruct s; unfold set_story, job_blocks; simpl.
  rewrite <- !app_assoc. reflexivity.
Qed.


Lemma for_each_jobs (l : list Job) (s : State) :
  forallb job_complete l = true ->
  for_each l experience_body s
  = Returns tt (set_story (story s ++ flat_map job_blocks l) s).
Proof.
  revert s; induction l as [|j l IH]; intros s H.
  - destruct s; simpl. unfold ret, set_story; simpl. now rewrite app_nil_r.
  - simpl in H. apply andb_prop in H as [Hj Hl].
    simpl. unfold bind. rewrite (@experience_body_returns j s Hj), (IH _ Hl).
    destruct s; unfold set_story; simpl. now rewrite <- app_assoc.
Qed.


(* ------------------------------------------------------------------ *)
(** ** What a run returns *)

Lemma bind_returns {A B} (m : M A) (k : A -> M B) (s s' : State) (a : A) :
  m s = Returns a s' -> bind m k s = k a s'.
Proof. intros E; unfold bind; now rewrite E. Qed.

Lemma bind_raises {A B} (m : M A) (k : A -> M B) (s s' : State) (e : exn) :
  m s = Raises e s' -> bind m k s = Raises e s'.
Proof. intros E; unfold bind; now rewrite E. Qed.

Lemma run_DATA_item {A} (key : string) (field : CV -> option A) (s : State)
      (v : A) :
  field (DATA s) = Some v -> DATA_item key field s = Returns v s.
Proof. intros E; unfold DATA_item, bind, gets, item; simpl; now rewrite E. Qed.

Lemma raise_DATA_item {A} (key : string) (field : CV -> option A) (s : State) :
  field (DATA s) = None -> @DATA_item A key field s = Raises (KeyError key) s.
Proof. intros E; unfold DATA_item, bind, gets, item; simpl; now rewrite E. Qed.

Lemma set_parts_same (s : State) : set_parts (parts s ++ []) s = s.
Proof. destruct s; unfold set_parts; simpl; now rewrite app_nil_r. Qed.

Lemma set_story_same (s : State) : set_story (story s ++ []) s = s.
Proof. destruct s; unfold set_story; simpl; now rewrite app_nil_r. Qed.

Lemma set_right_cells_same (s : State) :
  set_right_cells (right_cells s ++ []) s = s.
Proof. destruct s; unfold set_right_cells; simpl; now rewrite app_nil_r. Qed.

(** [if DATA.get("email"): parts.append(<mailto link>)] *)
Lemma run_email (s : State) (o : option string) :
  email (DATA s) = o ->
  when (truthy o)
       (e1 <- DATA_item "email" email ;;
        e2 <- DATA_item "email" email ;;
        parts_append (link_markup ("mailto:" +++ e1) e2)) s
  = Returns tt (set_parts (parts s ++ map email_entry (present o)) s).
Proof.
  intros E. destruct o as [[|c e]|]; simpl;
    try (unfold ret; now rewrite set_parts_same).
  erewrite bind_returns by (apply run_DATA_item; exact E).
  erewrite bind_returns by (apply run_DATA_item; exact E).
  reflexivity.
Qed.

(** [if DATA.get(key): parts.append(DATA[key])] *)
Lemma run_plain (key : string) (field : CV -> option string) (s : State)
      (o : option string) :
  field (DATA s) = o ->
  when (truthy o)
       (p <- DATA_item key field ;; parts_append p) s
  = Returns tt (set_parts (parts s ++ present o) s).
Proof.
  intros E. destruct o as [[|c e]|]; simpl;
    try (unfold ret; now rewrite set_parts_same).
  erewrite bind_returns by (apply run_DATA_item; exact E).
  reflexivity.
Qed.

Lemma os_path_exists_truthy (w : World) (p : string) :
  str_truthy p && os_path_exists w p = os_path_exists w p.
Proof. unfold os_path_exists; now destruct (str_truthy p). Qed.

Lemma run_add_headshot (hp : option string) (w : World) (s : State) :
  add_headshot hp w s
  = Returns tt (set_right_cells (right_cells s ++ headshot_rows hp w) s).
Proof.
  unfold add_headshot, headshot_rows. destruct hp as [p|].
  - rewrite os_path_exists_truthy. destruct (os_path_exists w p); simpl.
    + reflexivity.
    + unfold ret. now rewrite set_right_cells_same.
  - unfold ret. now rewrite set_right_cells_same.
Qed.

(** [if DATA.get("summary"): story += [heading, body, spacer]] *)
Lemma run_summary (s : State) (o : option string) :
  summary (DATA s) = o ->
  when (truthy o)
       (sm <- DATA_item "summary" summary ;;
        story_extend [ Paragraph "Summary" H2Accent;
                       Paragraph sm BodyMain;
                       Spacer 1 (3 * mm) ]) s
  = Returns tt (set_story (story s ++ summary_blocks (DATA s)) s).
Proof.
  intros E. unfold summary_blocks. rewrite E.
  destruct o as [[|c e]|]; simpl;
    try (unfold ret; now rewrite set_story_same).
  erewrite bind_returns by (apply run_DATA_item; exact E).
  reflexivity.
Qed.

(** What [complete] asks of a dictionary. *)
Lemma complete_inv (d : CV) :
  complete d = true ->
  exists nm ti jobs te ed la pr,
    name d = Some nm /\ title d = Some ti /\ experience d = Some jobs
    /\ forallb job_complete jobs = true
    /\ tech d = Some te /\ education d = Some ed
    /\ languages d = Some la /\ providers d = Some pr.
Proof.
  unfold complete.
  destruct (name d) as [nm|], (title d) as [ti|], (experience d) as [jobs|],
    (tech d) as [te|], (education d) as [ed|], (languages d) as [la|],
    (providers d) as [pr|]; simpl; rewrite ?andb_false_r; try discriminate.
  rewrite !andb_true_r. intros H.
  exists nm, ti, jobs, te, ed, la, pr. repeat split; assumption.
Qed.

(** Run the first statement of a sequence that returns. *)
Ltac run_statement :=
  first
    [ reflexivity
    | apply run_email; reflexivity
    | apply run_plain; reflexivity
    | apply for_each_links
    | apply run_add_headshot
    | apply run_summary; reflexivity
    | apply run_DATA_item; simpl; eassumption
    | apply for_each_jobs; assumption ].

Ltac step :=
  erewrite bind_returns by run_statement;
  cbv beta;
  unfold set_story, set_parts, set_right_cells;
  cbn [story parts right_cells DATA app].

Lemma build_pdf_returns (hp : option string) (w : World) (path : string)
      (s : State) :
  complete (DATA s) = true ->
  build_pdf hp w path s
  = Returns {| doc := doc_of path; flowables := story_of hp w (DATA s) |}
            (final hp w s).
Proof.
  intros Hc.
  destruct (complete_inv _ Hc)
    as (nm & ti & jobs & te & ed & la & pr
        & Hnm & Hti & Hex & Hjobs & Hte & Hed & Hla & Hpr).
  destruct s as [d p0 r0 st0]; cbn [DATA] in *.
  unfold build_pdf. cbv zeta.
  do 29 step.
  unfold ret, final, story_of, header_row, contact_line, contact_entries,
    header_right_cells, two_col, left_col, right_col, get_default, doc_of.
  cbn [DATA]. rewrite Hnm, Hti, Hex, Hte, Hed, Hla, Hpr.
  rewrite <- !app_assoc. reflexivity.
Qed.



(* ------------------------------------------------------------------ *)
(** ** The dictionary is only read *)

Section Frame.

Context {A B : Type}.

Lemma reads_only_ret (a : A) : reads_only (ret a).
Proof. intros s; reflexivity. Qed.

Lemma reads_only_raise (e : exn) : reads_only (@raise A e).
Proof. intros s; reflexivity. Qed.

Lemma reads_only_gets (f : State -> A) : reads_only (gets f).
Proof. intros s; reflexivity. Qed.

Lemma reads_only_bind (m : M A) (k : A -> M B) :
  reads_only m -> (forall a, reads_only (k a)) -> reads_only (bind m k).
Proof.
  intros Hm Hk s. unfold bind. specialize (Hm s).
  destruct (m s) as [a s'|e s']; simpl in *.
  - rewrite (Hk a s'). exact Hm.
  - exact Hm.
Qed.

Lemma reads_only_item {D} (d : D) (key : string) (field : D -> option A) :
  reads_only (item d key field).
Proof. unfold item; destruct (field d); intros s; reflexivity. Qed.

Lemma reads_only_for_each (l : list A) (body : A -> M unit) :
  (forall x, reads_only (body x)) -> reads_only (for_each l body).
Proof.
  intros Hb; induction l as [|x l IH]; simpl.
  - intros s; reflexivity.
  - intros s. unfold bind. specialize (Hb x s).
    destruct (body x s) as [[] s'|e s']; simpl in *.
    + rewrite (IH s'). exact Hb.
    + exact Hb.
Qed.

End Frame.

Lemma reads_only_modify (f : State -> State) :
  (forall s, DATA (f s) = DATA s) -> reads_only (modify f).
Proof. intros Hf s; apply Hf. Qed.

Lemma reads_only_when (c : bool) (body : M unit) :
  reads_only body -> reads_only (when c body).
Proof. intros Hb; destruct c; simpl; [exact Hb | intros s; reflexivity]. Qed.

(** Discharge [reads_only] along the structure of a computation. *)
Ltac frame :=
  repeat first
    [ apply reads_only_ret
    | apply reads_only_raise
    | apply reads_only_gets
    | apply reads_only_item
    | apply reads_only_modify; intros []; reflexivity
    | apply reads_only_when
    | apply reads_only_for_each; intro
    | apply reads_only_bind; [|intro] ].

Lemma links_body_reads_only (entry : string * string) :
  reads_only (links_body entry).
Proof. destruct entry as [label url]; unfold links_body, parts_append. frame. Qed.

Lemma experience_body_reads_only (j : Job) : reads_only (experience_body j).
Proof.
  unfold experience_body, bullets_body, story_append. frame.
Qed.

Lemma add_headshot_reads_only (hp : option string) (w : World) :
  reads_only (add_headshot hp w).
Proof.
  unfold add_headshot, right_cells_extend. destruct hp; frame.
Qed.

Lemma build_pdf_reads_only (hp : option string) (w : World) (path : string) :
  reads_only (build_pdf hp w path).
Proof.
  unfold build_pdf, DATA_item, DATA_get, parts_append, story_append,
    story_extend.
  cbv zeta.
  repeat first
    [ apply links_body_reads_only
    | apply experience_body_reads_only
    | apply add_headshot_reads_only
    | progress frame ].
Qed.

(* ------------------------------------------------------------------ *)
(** ** The shipped dictionary, run *)

Example footer_on_a_day :
  footer bare_world
  = [ saveState;
      setFont "Helvetica" 8;
      setFillColor grey;
      drawString (18 * mm) (12 * mm) "Generated with Python — v2025.09.07";
      drawRightString (fst A4 - 18 * mm) (12 * mm) "© Alexander Schram";
      restoreState ].
Proof. reflexivity. Qed.

Example shipped_run_returns :
  exists b s',
    build_pdf Shipped.HEADSHOT_PATH bare_world OUTPUT_PDF (initial Shipped.DATA)
    = Returns b s'
    /\ length (flowables b) = 31%nat
    /\ contact_text (flowables b)
       = Some ("<link href=" +++ dquote +++ "mailto:apschram@gmail.com"
               +++ dquote +++ ">apschram@gmail.com</link>"
               +++ " · +31 6 52 36 73 57 · Amsterdam, NL · "
               +++ "<link href=" +++ dquote +++ PDF_URL +++ dquote
               +++ ">PDF</link> · "
               +++ "<link href=" +++ dquote +++ LINKEDIN_URL +++ dquote
               +++ ">LinkedIn</link> · "
               +++ "<link href=" +++ dquote +++ GITHUB_URL +++ dquote
               +++ ">GitHub</link>").
Proof.
  eexists. eexists. split; [apply build_pdf_returns; reflexivity|].
  split; reflexivity.
Qed.

Example missing_title_raises :
  build_pdf Shipped.HEADSHOT_PATH bare_world OUTPUT_PDF
            (initial {| name := Some "A"; title := None; location := None;
                        email := None; phone := None; summary := None;
                        experience := None; tech := None; providers := None;
                        education := None; languages := None;
                        links := None |})
  = Raises (KeyError "title")
           {| DATA := {| name := Some "A"; title := None; location := None;
                         email := None; phone := None; summary := None;
                         experience := None; tech := None; providers := None;
                         education := None; languages := None;
                         links := None |};
              parts := []; right_cells := []; story := [] |}.
Proof. reflexivity. Qed.

(* ------------------------------------------------------------------ *)
(** ** Properties of a run *)



(** C9. [build_pdf] leaves the content dictionary as it found it, whether
    it returns or raises: the [DATA] of the state after the call is the
    [DATA] of the state before it. *)
Theorem build_pdf_leaves_DATA_unchanged :
  forall (hp : option string) (w : World) (path : string) (s : State),
    DATA (state_of (build_pdf hp w path s)) = DATA s.
Proof. intros hp w path s. apply build_pdf_reads_only. Qed.

Lemma length_present (o : option string) :
  length (present o) = if truthy o then 1%nat else 0%nat.
Proof. destruct o as [[|c s]|]; reflexivity. Qed.





(** C6. When the build returns, the right-hand stack of the header row is
    the list [right_cells].  With no headshot path configured, or with a
    path that does not exist, it holds one image, the QR code; with a path
    that exists it holds two images, the QR code and below it the headshot
    read from that path, a spacer row between them. *)
Theorem header_right_stack_images :
  forall (hp : option string) (w : World) (path : string) (s : State),
    complete (DATA s) = true ->
    exists b s',
      build_pdf hp w path s = Returns b s'
      /\ right_stack (flowables b) = right_cells s'
      /\ (hp = None ->
          right_cells s' = [[qr_img]]
          /\ flat_map (flat_map images) (right_cells s')
             = [make_qr LANDING_URL 6])
      /\ (forall p, hp = Some p -> os_path_exists w p = false ->
          right_cells s' = [[qr_img]]
          /\ flat_map (flat_map images) (right_cells s')
             = [make_qr LANDING_URL 6])
      /\ (forall p, hp = Some p -> os_path_exists w p = true ->
          right_cells s'
          = [ [qr_img]; [Spacer 1 (2 * mm)];
              [Image (Filename p) (28 * mm) (28 * mm)] ]
          /\ flat_map (flat_map images) (right_cells s')
             = [make_qr LANDING_URL 6; Filename p]).
Proof.
  intros hp w path s Hc.
  exists {| doc := doc_of path; flowables := story_of hp w (DATA s) |},
         (final hp w s).
  split; [now apply build_pdf_returns|].
  split; [reflexivity|].
  simpl. unfold header_right_cells, headshot_rows.
  repeat split; intros; subst;
    repeat match goal with H : os_path_exists _ _ = _ |- _ => rewrite H end;
    reflexivity.
Qed.

Lemma header_right_stack_images_with_headshot :
  complete (DATA (initial Shipped.DATA)) = true
  /\ exists b s',
      build_pdf (Some "AS.png")
                {| today := {| year := 2025; month := 2; day := 2 |};
                   fs_exists := fun p => String.eqb p "AS.png" |}
                OUTPUT_PDF (initial Shipped.DATA)
      = Returns b s'
      /\ flat_map (flat_map images) (right_stack (flowables b))
         = [make_qr LANDING_URL 6; Filename "AS.png"].
Proof.
  split; [reflexivity|].
  destruct (header_right_stack_images (Some "AS.png")
              {| today := {| year := 2025; month := 2; day := 2 |};
                 fs_exists := fun p => String.eqb p "AS.png" |}
              OUTPUT_PDF (initial Shipped.DATA) eq_refl)
    as (b & s' & Hrun & Hstack & _ & _ & Hyes).
  exists b, s'. split; [exact Hrun|].
  rewrite Hstack. exact (proj2 (Hyes "AS.png" eq_refl eq_refl)).
Defined.



(** *** Paragraphs of a given style in the experience section *)


Lemma filter_bullets_none (st : StyleName) (l : list string) :
  st <> BulletItem ->
  filter (has_style st) (map bullet_block l) = [].
Proof.
  intros H; induction l as [|b l IH]; simpl; [reflexivity|].
  destruct st; try exact IH. now contradiction H.
Qed.


Lemma filter_job_blocks_heading (j : Job) :
  filter (has_style BodyMain) (job_blocks j) = [job_heading j].
Proof.
  unfold job_blocks. simpl. rewrite filter_app, filter_bullets_none by discriminate.
  reflexivity.
Qed.

Lemma filter_flat_map {A B} (p : B -> bool) (f g : A -> list B) (l : list A) :
  (forall x, filter p (f x) = g x) ->
  filter p (flat_map f l) = flat_map g l.
Proof.
  intros H; induction l as [|x l IH]; simpl; [reflexivity|].
  now rewrite filter_app, H, IH.
Qed.

Lemma flat_map_singleton {A B} (f : A -> B) (l : list A) :
  flat_map (fun x => [f x]) l = map f l.
Proof. induction l as [|x l IH]; simpl; [reflexivity | now rewrite IH]. Qed.

Lemma filter_summary_blocks (st : StyleName) (d : CV) :
  filter (has_style st) (summary_blocks d)
  = if style_eqb st H2Accent then flat_map (fun _ => [Paragraph "Summary" H2Accent])
                                           (present (summary d))
    else if style_eqb st BodyMain
         then map (fun sm => Paragraph sm BodyMain) (present (summary d))
         else [].
Proof.
  unfold summary_blocks. destruct (summary d) as [[|c sm]|]; simpl;
    destruct st; reflexivity.
Qed.




(** *** Section headings of a story *)

Lemma section_headings_app (l1 l2 : list Flowable) :
  section_headings (l1 ++ l2) = section_headings l1 ++ section_headings l2.
Proof.
  unfold section_headings. now rewrite flat_map_app, filter_app, map_app.
Qed.

Lemma section_headings_job_blocks (jobs : list Job) :
  section_headings (flat_map job_blocks jobs) = [].
Proof.
  induction jobs as [|j jobs IH]; [reflexivity|].
  cbn [flat_map]. rewrite section_headings_app, IH, app_nil_r.
  unfold job_blocks.
  induction (get_default j bullets []) as [|b bs IHb]; [reflexivity|exact IHb].
Qed.

Lemma section_headings_body_paragraphs (l : list string) :
  section_headings (map (fun it => Paragraph it BodyMain) l) = [].
Proof. induction l as [|x l IH]; [reflexivity|exact IH]. Qed.

Lemma section_headings_summary_blocks (d : CV) :
  section_headings (summary_blocks d)
  = if truthy (summary d) then ["Summary"] else [].
Proof. unfold summary_blocks. now destruct (summary d) as [[|c sm]|]. Qed.

Lemma paragraphs_headshot_rows (hp : option string) (w : World) :
  flat_map (flat_map paragraphs) (headshot_rows hp w) = [].
Proof.
  unfold headshot_rows. destruct hp as [p|]; [|reflexivity].
  now destruct (os_path_exists w p).
Qed.

Lemma section_headings_header_row (hp : option string) (w : World) (d : CV) :
  section_headings [header_row hp w d] = [].
Proof.
  unfold section_headings, header_row, header_right_cells. simpl.
  rewrite paragraphs_headshot_rows. reflexivity.
Qed.

Lemma section_headings_two_col (d : CV) :
  section_headings [two_col d]
  = ["Technical"; "Education"; "Languages"; "Data Providers"].
Proof.
  unfold section_headings, two_col, left_col, right_col. simpl.
  rewrite !app_nil_r, filter_app, map_app.
  change (map fst (filter (fun p => style_eqb (snd p) H2Accent)
                          (flat_map paragraphs ?l)))
    with (section_headings l).
  rewrite section_headings_body_paragraphs. reflexivity.
Qed.

Lemma section_headings_story_of (hp : option string) (w : World) (d : CV) :
  section_headings (story_of hp w d)
  = (if truthy (summary d) then ["Summary"] else [])
    ++ ["Experience"; "Technical"; "Education"; "Languages"; "Data Providers"].
Proof.
  unfold story_of.
  change [header_row hp w d; Spacer 1 (6 * mm)]
    with ([header_row hp w d] ++ [Spacer 1 (6 * mm)]).
  change [Spacer 1 (4 * mm); two_col d; Spacer 1 (6 * mm)]
    with ([Spacer 1 (4 * mm)] ++ [two_col d] ++ [Spacer 1 (6 * mm)]).
  rewrite !section_headings_app.
  rewrite section_headings_header_row, section_headings_summary_blocks,
    section_headings_job_blocks, section_headings_two_col.
  reflexivity.
Qed.

Lemma summary_blocks_empty (d : CV) :
  truthy (summary d) = false -> summary_blocks d = [].
Proof. unfold summary_blocks. now destruct (summary d) as [[|c sm]|]. Qed.

Lemma heading_in_section_headings (t : string) (l : list Flowable) :
  In (Paragraph t H2Accent) l -> In t (section_headings l).
Proof.
  induction l as [|f l IH]; [contradiction|].
  change (f :: l) with ([f] ++ l). rewrite section_headings_app.
  intros [->|H]; apply in_or_app; [left; now left | right; now apply IH].
Qed.

Lemma body_paragraphs_story_of (hp : option string) (w : World) (d : CV) :
  filter (has_style BodyMain) (story_of hp w d)
  = map (fun sm => Paragraph sm BodyMain) (present (summary d))
    ++ map job_heading (get_default d experience []).
Proof.
  unfold story_of. rewrite !filter_app.
  rewrite (filter_flat_map _ _ (fun j => [job_heading j]) _
                           filter_job_blocks_heading).
  rewrite filter_summary_blocks, flat_map_singleton. simpl.
  now rewrite app_nil_r.
Qed.

Lemma job_heading_not_empty (j : Job) :
  job_heading j <> Paragraph EmptyString BodyMain.
Proof. unfold job_heading. simpl. discriminate. Qed.

(** C5. When the summary is empty or absent and the build returns, the
    block that follows the header row and its spacer is the "Experience"
    heading; no heading of the story, nested or not, reads "Summary", and
    the story holds no paragraph of the body style with the summary as
    text. *)
Theorem empty_summary_emits_nothing :
  forall (hp : option string) (w : World) (path : string) (s : State),
    complete (DATA s) = true ->
    truthy (summary (DATA s)) = false ->
    exists b s' hdr rest,
      build_pdf hp w path s = Returns b s'
      /\ flowables b
         = hdr :: Spacer 1 (6 * mm) :: Paragraph "Experience" H2Accent :: rest
      /\ ~ In "Summary" (section_headings (flowables b))
      /\ ~ In (Paragraph "Summary" H2Accent) (flowables b)
      /\ (forall sm, summary (DATA s) = Some sm ->
                     ~ In (Paragraph sm BodyMain) (flowables b)).
Proof.
  intros hp w path s Hc Hs.
  assert (Hno : ~ In "Summary" (section_headings (story_of hp w (DATA s)))).
  { rewrite section_headings_story_of, Hs. simpl.
    intros H; repeat destruct H as [H|H]; try discriminate H; exact H. }
  exists {| doc := doc_of path; flowables := story_of hp w (DATA s) |},
         (final hp w s),
         (header_row hp w (DATA s)).
  eexists. split; [now apply build_pdf_returns|].
  cbn [flowables]. split; [|split; [exact Hno|split]].
  - unfold story_of. rewrite (summary_blocks_empty _ Hs). reflexivity.
  - intros H. apply Hno. now apply heading_in_section_headings.
  - intros sm Hsm H.
    assert (Hf : In (Paragraph sm BodyMain)
                    (filter (has_style BodyMain) (story_of hp w (DATA s)))).
    { apply filter_In. split; [exact H|reflexivity]. }
    rewrite body_paragraphs_story_of in Hf.
    rewrite Hsm in Hs, Hf. simpl in Hs. destruct sm; [|discriminate].
    simpl in Hf. apply in_map_iff in Hf as (j & Hj & _).
    exact (job_heading_not_empty Hj).
Qed.

Lemma empty_summary_emits_nothing_run :
  complete (DATA (initial empty_sections)) = true
  /\ truthy (summary (DATA (initial empty_sections))) = false
  /\ exists b s',
      build_pdf None bare_world OUTPUT_PDF (initial empty_sections)
      = Returns b s'
      /\ nth_error (flowables b) 2 = Some (Paragraph "Experience" H2Accent)
      /\ ~ In "Summary" (section_headings (flowables b)).
Proof.
  split; [reflexivity|]. split; [reflexivity|].
  destruct (empty_summary_emits_nothing None bare_world OUTPUT_PDF
              (initial empty_sections) eq_refl eq_refl)
    as (b & s' & hdr & rest & Hrun & Hshape & Hno & _).
  exists b, s'. split; [exact Hrun|]. split; [|exact Hno].
  rewrite Hshape. reflexivity.
Defined.




(** C8, as the code has it.  When the build returns, its story ends with
    a spacer, the two-column table, a spacer and the closing note.  The
    table has one row of two cells: on the left the technical/education
    stack, on the right the languages/providers stack, each wrapped in a
    [KeepInFrame] of its own.  The padding commands of the table style
    range over all cells, so the two cells have the same style: left, top
    and bottom padding zero, and a right padding of 12 points that follows
    the left cell as well as the right cell. *)
Theorem two_column_block_layout :
  forall (hp : option string) (w : World) (path : string) (s : State),
    complete (DATA s) = true ->
    exists b s' te ed la pr before t left_kif right_kif,
      build_pdf hp w path s = Returns b s'
      /\ tech (DATA s) = Some te /\ education (DATA s) = Some ed
      /\ languages (DATA s) = Some la /\ providers (DATA s) = Some pr
      /\ flowables b
         = before ++ [Spacer 1 (4 * mm); t; Spacer 1 (6 * mm); closing_note]
      /\ t = Table [[left_kif; right_kif]] [None; None] two_col_style
      /\ left_kif
         = KeepInFrame 0 0
             ([ Paragraph "Technical" H2Accent;
                Paragraph te BodyMain;
                Spacer 1 (2 * mm);
                Paragraph "Education" H2Accent ]
              ++ map (fun it => Paragraph it BodyMain) ed)
             "LEFT"
      /\ right_kif
         = KeepInFrame 0 0
             [ Paragraph "Languages" H2Accent;
               Paragraph la BodyMain;
               Spacer 1 (2 * mm);
               Paragraph "Data Providers" H2Accent;
               Paragraph pr BodyMain ]
             "LEFT"
      /\ table_cell_style t 0 0
         = Some {| leftPadding := 0; rightPadding := 12; topPadding := 0;
                   bottomPadding := 0; valign := "TOP"; alignment := "LEFT" |}
      /\ table_cell_style t 0 1
         = Some {| leftPadding := 0; rightPadding := 12; topPadding := 0;
                   bottomPadding := 0; valign := "TOP"; alignment := "LEFT" |}.
Proof.
  intros hp w path s Hc.
  destruct (complete_inv _ Hc)
    as (nm & ti & jobs & te & ed & la & pr
        & Hnm & Hti & Hex & Hjobs & Hte & Hed & Hla & Hpr).
  exists {| doc := doc_of path; flowables := story_of hp w (DATA s) |},
         (final hp w s), te, ed, la, pr,
         ([header_row hp w (DATA s); Spacer 1 (6 * mm)]
          ++ summary_blocks (DATA s)
          ++ [Paragraph "Experience" H2Accent]
          ++ flat_map job_blocks jobs).
  do 3 eexists.
  split; [now apply build_pdf_returns|].
  repeat (split; [eassumption|]).
  cbn [flowables]. split.
  { unfold story_of, get_default. rewrite Hex. rewrite <- !app_assoc.
    reflexivity. }
  unfold two_col, left_col, right_col, get_default.
  rewrite Hte, Hed, Hla, Hpr.
  repeat (split; [reflexivity|]). reflexivity.
Qed.

Lemma two_column_block_layout_shipped :
  complete (DATA (initial Shipped.DATA)) = true
  /\ exists b s' t,
      build_pdf None bare_world OUTPUT_PDF (initial Shipped.DATA)
      = Returns b s'
      /\ In t (flowables b)
      /\ option_map rightPadding (table_cell_style t 0 0) = Some 12
      /\ option_map rightPadding (table_cell_style t 0 1) = Some 12.
Proof.
  split; [reflexivity|].
  destruct (two_column_block_layout None bare_world OUTPUT_PDF
              (initial Shipped.DATA) eq_refl)
    as (b & s' & te & ed & la & pr & before & t & lk & rk
        & Hrun & _ & _ & _ & _ & Hstory & _ & _ & _ & Hleft & Hright).
  exists b, s', t. split; [exact Hrun|].
  split; [|split; [now rewrite Hleft | now rewrite Hright]].
  rewrite Hstory. apply in_or_app. right. right. left. reflexivity.
Defined.

(** C8, as stated, fails: in the run on the shipped dictionary the left
    cell of the two-column table does not have a zero gap.  Its right
    padding is the same 12 points that follow the right cell. *)
Lemma left_cell_is_followed_by_the_gap :
  exists b s' t left_style right_style,
    build_pdf Shipped.HEADSHOT_PATH bare_world OUTPUT_PDF
              (initial Shipped.DATA)
    = Returns b s'
    /\ nth_error (flowables b) 28 = Some t
    /\ t = two_col Shipped.DATA
    /\ table_cell_style t 0 0 = Some left_style
    /\ table_cell_style t 0 1 = Some right_style
    /\ rightPadding left_style = 12
    /\ ~ (rightPadding left_style == 0)
    /\ rightPadding right_style = rightPadding left_style.
Proof.
  eexists. eexists. exists (two_col Shipped.DATA). eexists. eexists.
  split; [vm_compute; reflexivity|].
  split; [vm_compute; reflexivity|].
  split; [reflexivity|].
  split; [vm_compute; reflexivity|].
  split; [vm_compute; reflexivity|].
  split; [reflexivity|].
  split; [|reflexivity].
  cbn [rightPadding]. unfold Qeq. simpl. discriminate.
Qed.

(* ------------------------------------------------------------------ *)
(** ** Which key a run misses *)

Lemma job_missing_complete (j : Job) :
  job_missing j = None <-> job_complete j = true.
Proof.
  destruct j as [[c|] [r|] [d|] bs]; unfold job_missing, job_complete; simpl;
    split; congruence.
Qed.

Lemma experience_body_raises_key (j : Job) (s : State) (k : string) :
  job_missing j = Some k ->
  experience_body j s = Raises (KeyError k) s.
Proof.
  destruct j as [[c|] [r|] [d|] bs]; unfold job_missing; simpl;
    intros [= <-]; reflexivity.
Qed.

Lemma for_each_jobs_raises_key (l : list Job) (s : State) (k : string) :
  jobs_missing l = Some k ->
  exists s', for_each l experience_body s = Raises (KeyError k) s'.
Proof.
  revert s; induction l as [|j l IH]; intros s H; [discriminate|].
  simpl in H. cbn [for_each].
  destruct (job_missing j) as [k'|] eqn:Hj.
  - injection H as <-. exists s. apply bind_raises.
    now apply experience_body_raises_key.
  - destruct (IH (set_story (story s ++ job_blocks j) s) H) as [s' E].
    exists s'. erewrite bind_returns; [exact E|].
    apply experience_body_returns. now apply job_missing_complete.
Qed.

Lemma jobs_missing_complete (l : list Job) :
  jobs_missing l = None <-> forallb job_complete l = true.
Proof.
  induction l as [|j l IH]; simpl; [tauto|].
  destruct (job_missing j) as [k|] eqn:Hj.
  - split; [discriminate|]. intros H. apply andb_prop in H as [H _].
    apply job_missing_complete in H. congruence.
  - apply job_missing_complete in Hj. rewrite Hj. exact IH.
Qed.

Lemma first_missing_complete (d : CV) :
  first_missing d = None <-> complete d = true.
Proof.
  unfold first_missing, complete.
  destruct (name d), (title d), (experience d) as [jobs|]; simpl;
    try (split; discriminate).
  destruct (jobs_missing jobs) as [k|] eqn:Hj.
  - split; [discriminate|]. intros H.
    assert (Hf : forallb job_complete jobs = true).
    { destruct (forallb job_complete jobs); [reflexivity|discriminate]. }
    apply jobs_missing_complete in Hf. congruence.
  - apply jobs_missing_complete in Hj. rewrite Hj.
    destruct (tech d), (education d), (languages d), (providers d); simpl;
      split; congruence.
Qed.

(** The first statement of a sequence raises [KeyError] on a known key. *)
Ltac raises_key :=
  match goal with
  | H : Some _ = Some _ |- _ => injection H as <-
  end;
  eexists;
  apply bind_raises; apply raise_DATA_item; simpl; eassumption.

Lemma build_pdf_raises_key (hp : option string) (w : World) (path : string)
      (s : State) (k : string) :
  first_missing (DATA s) = Some k ->
  exists s', build_pdf hp w path s = Raises (KeyError k) s'.
Proof.
  destruct s as [d p0 r0 st0]; cbn [DATA]. unfold first_missing.
  intros H. unfold build_pdf. cbv zeta. step.
  destruct (name d) as [nm|] eqn:Hnm; [step|raises_key].
  destruct (title d) as [ti|] eqn:Hti; [step|raises_key].
  do 17 step.
  destruct (experience d) as [jobs|] eqn:Hex; [step|raises_key].
  destruct (jobs_missing jobs) as [k'|] eqn:Hjobs.
  - injection H as <-.
    match goal with
    | |- context [bind (for_each jobs experience_body) _ ?s0] =>
        destruct (for_each_jobs_raises_key jobs s0 Hjobs) as [s' E]
    end.
    exists s'. apply bind_raises. exact E.
  - apply jobs_missing_complete in Hjobs. step.
    destruct (tech d) as [te|] eqn:Hte; [step|raises_key].
    destruct (education d) as [ed|] eqn:Hed; [step|raises_key].
    destruct (languages d) as [la|] eqn:Hla; [step|raises_key].
    destruct (providers d) as [pr|] eqn:Hpr; [step|raises_key].
    discriminate.
Qed.


Example missing_role_raises_role :
  result (build_pdf None bare_world OUTPUT_PDF (initial missing_role))
  = inr (KeyError "role").
Proof. reflexivity. Qed.

(* ------------------------------------------------------------------ *)
(** ** Optional keys *)

Lemma present_fill {D} (d : D) (field : D -> option string) :
  present (Some (get_default d field EmptyString)) = present (field d).
Proof. unfold get_default. now destruct (field d). Qed.

Lemma job_blocks_fill (j : Job) : job_blocks (fill_job j) = job_blocks j.
Proof. reflexivity. Qed.

Lemma flat_map_job_blocks_fill (l : list Job) :
  flat_map job_blocks (map fill_job l) = flat_map job_blocks l.
Proof.
  induction l as [|j l IH]; [reflexivity|].
  cbn [map flat_map]. now rewrite IH, job_blocks_fill.
Qed.

Lemma jobs_missing_fill (l : list Job) :
  jobs_missing (map fill_job l) = jobs_missing l.
Proof.
  induction l as [|j l IH]; [reflexivity|].
  cbn [map jobs_missing]. now rewrite IH.
Qed.

Lemma first_missing_fill (d : CV) :
  first_missing (fill_optional d) = first_missing d.
Proof.
  unfold first_missing, fill_optional. cbn.
  destruct (name d), (title d), (experience d) as [jobs|]; try reflexivity.
  cbn. now rewrite jobs_missing_fill.
Qed.

Lemma story_of_fill (hp : option string) (w : World) (d : CV) :
  story_of hp w (fill_optional d) = story_of hp w d.
Proof.
  unfold story_of, header_row, contact_line, contact_entries, summary_blocks,
    two_col, left_col, right_col, get_default, fill_optional.
  cbn [name title location email phone summary experience tech providers
       education languages links].
  rewrite !present_fill.
  destruct (experience d) as [jobs|]; cbn [option_map];
    [rewrite flat_map_job_blocks_fill|]; reflexivity.
Qed.

(** X2. The keys read with [.get] may be absent, and an absent one behaves
    as an empty one: filling every absent email, phone, location and
    summary with the empty string, every absent links mapping with the
    empty mapping and every absent bullets list with the empty list leaves
    what [build_pdf] returns or raises unchanged. *)
Theorem absent_optional_keys_behave_as_empty :
  forall (hp : option string) (w : World) (path : string) (s : State),
    result (build_pdf hp w path (with_DATA (fill_optional (DATA s)) s))
    = result (build_pdf hp w path s).
Proof.
  intros hp w path s.
  destruct (first_missing (DATA s)) as [k|] eqn:H.
  - destruct (build_pdf_raises_key hp w path s H) as [s1 E1].
    assert (H' : first_missing (DATA (with_DATA (fill_optional (DATA s)) s))
                 = Some k).
    { cbn [with_DATA DATA]. now rewrite first_missing_fill. }
    destruct (build_pdf_raises_key hp w path _ H') as [s2 E2].
    now rewrite E1, E2.
  - assert (H' : first_missing (DATA (with_DATA (fill_optional (DATA s)) s))
                 = None).
    { cbn [with_DATA DATA]. now rewrite first_missing_fill. }
    apply first_missing_complete in H, H'.
    rewrite (build_pdf_returns hp w path s H).
    rewrite (build_pdf_returns hp w path _ H').
    cbn [with_DATA DATA result]. now rewrite story_of_fill.
Qed.

(* ------------------------------------------------------------------ *)
(** ** The headshot and the images of a story *)







Lemma images_job_blocks (jobs : list Job) :
  flat_map images (flat_map job_blocks jobs) = [].
Proof.
  induction jobs as [|j jobs IH]; [reflexivity|].
  cbn [flat_map]. rewrite flat_map_app, IH, app_nil_r.
  unfold job_blocks. cbn [flat_map images app].
  rewrite flat_map_app. cbn.
  induction (get_default j bullets []) as [|b bs IHb]; [reflexivity|exact IHb].
Qed.

Lemma images_body_paragraphs (l : list string) :
  flat_map images (map (fun it => Paragraph it BodyMain) l) = [].
Proof. induction l as [|x l IH]; [reflexivity|exact IH]. Qed.

Lemma images_summary_blocks (d : CV) :
  flat_map images (summary_blocks d) = [].
Proof. unfold summary_blocks. now destruct (summary d) as [[|c sm]|]. Qed.

Lemma images_tail_story_of (hp : option string) (w : World) (d : CV) :
  flat_map images (tl (story_of hp w d)) = [].
Proof.
  unfold story_of. cbn [app tl]. cbn [flat_map images app].
  rewrite flat_map_app, images_summary_blocks. cbn [flat_map images app].
  rewrite flat_map_app, images_job_blocks.
  unfold two_col, left_col, right_col. cbn.
  rewrite !app_nil_r. apply images_body_paragraphs.
Qed.

(** X5. When the build returns, the only images of the whole story, nested
    blocks included, are those of the right-hand stack of the header row:
    every block after the header row is free of images.  The story holds
    the QR image and at most one more image. *)
Theorem images_only_in_header :
  forall (hp : option string) (w : World) (path : string) (s : State),
    complete (DATA s) = true ->
    exists b s' rest,
      build_pdf hp w path s = Returns b s'
      /\ flat_map images (tl (flowables b)) = []
      /\ flat_map images (flowables b)
         = flat_map (flat_map images) (right_stack (flowables b))
      /\ flat_map images (flowables b) = make_qr LANDING_URL 6 :: rest
      /\ (length rest <= 1)%nat.
Proof.
  intros hp w path s Hc.
  exists {| doc := doc_of path; flowables := story_of hp w (DATA s) |},
         (final hp w s),
         (flat_map (flat_map images) (headshot_rows hp w)).
  split; [now apply build_pdf_returns|].
  cbn [flowables]. split; [apply images_tail_story_of|].
  assert (E : flat_map images (story_of hp w (DATA s))
              = flat_map (flat_map images) (header_right_cells hp w)).
  { change (story_of hp w (DATA s))
      with (header_row hp w (DATA s) :: tl (story_of hp w (DATA s))).
    cbn [flat_map]. rewrite images_tail_story_of, app_nil_r.
    unfold header_row. cbn. now rewrite !app_nil_r. }
  split; [exact E|]. split; [exact E|].
  unfold headshot_rows. destruct hp as [p|]; [|cbn; lia].
  destruct (os_path_exists w p); cbn; lia.
Qed.

Lemma images_only_in_header_shipped :
  complete (DATA (initial Shipped.DATA)) = true
  /\ exists b s',
      build_pdf (Some "AS.png")
                {| today := {| year := 2025; month := 3; day := 1 |};
                   fs_exists := fun q => String.eqb q "AS.png" |}
                OUTPUT_PDF (initial Shipped.DATA)
      = Returns b s'
      /\ flat_map images (tl (flowables b)) = [].
Proof.
  split; [reflexivity|].
  destruct (images_only_in_header (Some "AS.png")
              {| today := {| year := 2025; month := 3; day := 1 |};
                 fs_exists := fun q => String.eqb q "AS.png" |}
              OUTPUT_PDF (initial Shipped.DATA) eq_refl)
    as (b & s' & rest & Hrun & Htl & _).
  exists b, s'. split; [exact Hrun | exact Htl].
Defined.

(* ------------------------------------------------------------------ *)
(** ** The header *)

Lemma filter_nonempty_url_none (l : list (string * string)) :
  forallb (fun entry => negb (str_truthy (snd entry))) l = true ->
  filter nonempty_url l = [].
Proof.
  induction l as [|x l IH]; [reflexivity|]. simpl. intros H.
  apply andb_prop in H as [Hx Hl]. unfold nonempty_url at 1.
  destruct (str_truthy (snd x)); [discriminate|]. now apply IH.
Qed.

(** X6. The contact paragraph is not optional.  When the email, the phone
    and the location are empty or absent and no link has a non-empty URL,
    the build still returns a header whose left-hand stack is the name, the
    title, a spacer and the contact paragraph, and the text of that
    paragraph is the empty string. *)
Theorem contact_paragraph_without_entries :
  forall (hp : option string) (w : World) (path : string) (s : State),
    complete (DATA s) = true ->
    truthy (email (DATA s)) = false ->
    truthy (phone (DATA s)) = false ->
    truthy (location (DATA s)) = false ->
    forallb (fun entry => negb (str_truthy (snd entry)))
            (get_default (DATA s) links []) = true ->
    exists b s' nm ti,
      build_pdf hp w path s = Returns b s'
      /\ name (DATA s) = Some nm /\ title (DATA s) = Some ti
      /\ parts s' = []
      /\ left_stack_of (flowables b)
         = [ Paragraph nm NameLine; Paragraph ti SubLine; Spacer 1 (2 * mm);
             Paragraph EmptyString BodyMain ].
Proof.
  intros hp w path s Hc He Hp Hl Hlinks.
  destruct (complete_inv _ Hc)
    as (nm & ti & jobs & te & ed & la & pr
        & Hnm & Hti & Hex & Hjobs & Hte & Hed & Hla & Hpr).
  exists {| doc := doc_of path; flowables := story_of hp w (DATA s) |},
         (final hp w s), nm, ti.
  split; [now apply build_pdf_returns|].
  split; [exact Hnm|]. split; [exact Hti|].
  assert (E : contact_entries (DATA s) = []).
  { unfold contact_entries. rewrite (filter_nonempty_url_none _ Hlinks).
    pose proof (length_present (email (DATA s))) as L1.
    pose proof (length_present (phone (DATA s))) as L2.
    pose proof (length_present (location (DATA s))) as L3.
    rewrite He in L1. rewrite Hp in L2. rewrite Hl in L3.
    destruct (present (email (DATA s))); [|discriminate L1].
    destruct (present (phone (DATA s))); [|discriminate L2].
    destruct (present (location (DATA s))); [|discriminate L3].
    reflexivity. }
  split; [exact E|].
  cbn. unfold contact_line, get_default. now rewrite E, Hnm, Hti.
Qed.

Lemma contact_paragraph_without_entries_run :
  complete (DATA (initial required_only)) = true
  /\ truthy (email (DATA (initial required_only))) = false
  /\ truthy (phone (DATA (initial required_only))) = false
  /\ truthy (location (DATA (initial required_only))) = false
  /\ forallb (fun entry => negb (str_truthy (snd entry)))
             (get_default (DATA (initial required_only)) links []) = true
  /\ exists b s',
      build_pdf None bare_world OUTPUT_PDF (initial required_only)
      = Returns b s'
      /\ contact_text (flowables b) = Some EmptyString.
Proof.
  repeat (split; [reflexivity|]).
  destruct (contact_paragraph_without_entries None bare_world OUTPUT_PDF
              (initial required_only) eq_refl eq_refl eq_refl eq_refl eq_refl)
    as (b & s' & nm & ti & Hrun & _ & _ & _ & Hstack).
  exists b, s'. split; [exact Hrun|].
  pose proof Hrun as Hrun'.
  rewrite (build_pdf_returns None bare_world OUTPUT_PDF (initial required_only)
             eq_refl) in Hrun'.
  injection Hrun' as <- _. reflexivity.
Defined.

(** X7. When the build returns, every cell of the right-hand table of the
    header row, one row without a headshot or three rows with it, has zero
    padding on its four sides and is aligned to the top and to the right:
    the table style sets every attribute on all cells, so nothing of the
    default cell style is left. *)
Theorem right_table_cells_are_flush :
  forall (hp : option string) (w : World) (path : string) (s : State)
         (row : Z),
    complete (DATA s) = true ->
    (0 <= row < Z.of_nat (length (header_right_cells hp w)))%Z ->
    exists b s' t,
      build_pdf hp w path s = Returns b s'
      /\ right_tbl_of (flowables b) = Some t
      /\ t = Table (right_cells s') [Some (30 * mm)] right_tbl_style
      /\ length (right_cells s') = length (header_right_cells hp w)
      /\ table_cell_style t row 0
         = Some {| leftPadding := 0; rightPadding := 0; topPadding := 0;
                   bottomPadding := 0; valign := "TOP";
                   alignment := "RIGHT" |}.
Proof.
  intros hp w path s row Hc Hrow.
  exists {| doc := doc_of path; flowables := story_of hp w (DATA s) |},
         (final hp w s),
         (Table (header_right_cells hp w) [Some (30 * mm)] right_tbl_style).
  split; [now apply build_pdf_returns|].
  split; [reflexivity|]. split; [reflexivity|]. split; [reflexivity|].
  unfold header_right_cells, headshot_rows in *.
  destruct hp as [p|]; [destruct (os_path_exists w p)|]; cbn in Hrow.
  - assert (Hr : row = 0%Z \/ row = 1%Z \/ row = 2%Z) by lia.
    destruct Hr as [->|[->| ->]]; reflexivity.
  - assert (Hr : row = 0%Z) by lia. subst row. reflexivity.
  - assert (Hr : row = 0%Z) by lia. subst row. reflexivity.
Qed.

Lemma right_table_cells_are_flush_headshot_row :
  complete (DATA (initial Shipped.DATA)) = true
  /\ (0 <= 2 < Z.of_nat (length (header_right_cells (Some "AS.png")
                                   {| today := {| year := 2025; month := 3;
                                                  day := 3 |};
                                      fs_exists := fun _ => true |})))%Z
  /\ exists b s' t,
      build_pdf (Some "AS.png")
                {| today := {| year := 2025; month := 3; day := 3 |};
                   fs_exists := fun _ => true |}
                OUTPUT_PDF (initial Shipped.DATA)
      = Returns b s'
      /\ right_tbl_of (flowables b) = Some t
      /\ option_map topPadding (table_cell_style t 2 0) = Some 0.
Proof.
  split; [reflexivity|]. split; [cbn; lia|].
  destruct (@right_table_cells_are_flush (Some "AS.png")
              {| today := {| year := 2025; month := 3; day := 3 |};
                 fs_exists := fun _ => true |}
              OUTPUT_PDF (initial Shipped.DATA) 2 eq_refl)
    as (b & s' & t & Hrun & Ht & _ & _ & Hstyle); [cbn; lia|].
  exists b, s', t. split; [exact Hrun|]. split; [exact Ht|].
  now rewrite Hstyle.
Defined.

(** X8. When the build returns, the story opens with the header row, a
    table of one row and two cells.  Its style sets the left, right and
    bottom padding of both cells to zero and aligns them to the top, and it
    sets neither the top padding nor the horizontal alignment: those two
    stay what the default cell style has. *)
Theorem header_row_keeps_default_top_padding :
  forall (hp : option string) (w : World) (path : string) (s : State)
         (col : Z),
    complete (DATA s) = true ->
    (col = 0 \/ col = 1)%Z ->
    exists b s' t left_cell right_cell c,
      build_pdf hp w path s = Returns b s'
      /\ hd_error (flowables b) = Some t
      /\ t = Table [[left_cell; right_cell]] [None; Some (30 * mm)]
                   header_row_style
      /\ table_cell_style t 0 col = Some c
      /\ leftPadding c = 0 /\ rightPadding c = 0 /\ bottomPadding c = 0
      /\ valign c = "TOP"
      /\ topPadding c = topPadding default_cell_style
      /\ alignment c = alignment default_cell_style.
Proof.
  intros hp w path s col Hc Hcol.
  exists {| doc := doc_of path; flowables := story_of hp w (DATA s) |},
         (final hp w s).
  do 4 eexists.
  split; [now apply build_pdf_returns|].
  split; [reflexivity|]. split; [reflexivity|].
  destruct Hcol as [-> | ->]; (split; [reflexivity|]);
    repeat split; reflexivity.
Qed.

Lemma header_row_keeps_default_top_padding_shipped :
  complete (DATA (initial Shipped.DATA)) = true
  /\ (1 = 0 \/ 1 = 1)%Z
  /\ exists b s' t,
      build_pdf None bare_world OUTPUT_PDF (initial Shipped.DATA)
      = Returns b s'
      /\ hd_error (flowables b) = Some t
      /\ option_map bottomPadding (table_cell_style t 0 1) = Some 0.
Proof.
  split; [reflexivity|]. split; [right; reflexivity|].
  destruct (@header_row_keeps_default_top_padding None bare_world OUTPUT_PDF
              (initial Shipped.DATA) 1 eq_refl (or_intror eq_refl))
    as (b & s' & t & lc & rc & c & Hrun & Ht & _ & Hstyle & _ & _ & Hb & _).
  exists b, s', t. split; [exact Hrun|]. split; [exact Ht|].
  rewrite Hstyle. cbn. now rewrite Hb.
Defined.

(* ------------------------------------------------------------------ *)
(** ** The page footer and the frame *)

(** X9. When the build returns, its document has one page template with
    one frame, and the footer callback of that template, called in any
    world, saves the canvas state, draws two strings and restores the
    state.  The left string starts at the left edge of the frame, the right
    string ends at its right edge (lengths computed exactly), and both sit
    on one baseline, above the bottom of the page and below the bottom edge
    of the frame: the footer is drawn in the bottom margin. *)
Theorem footer_is_drawn_in_the_bottom_margin :
  forall (hp : option string) (w w' : World) (path : string) (s : State),
    complete (DATA s) = true ->
    exists b s' pt fr font size colour baseline right_x left_text right_text,
      build_pdf hp w path s = Returns b s'
      /\ pageTemplates (doc b) = [pt]
      /\ frames pt = [fr]
      /\ onPage pt w'
         = [ saveState; setFont font size; setFillColor colour;
             drawString (x1 fr) baseline left_text;
             drawRightString right_x baseline right_text;
             restoreState ]
      /\ right_x == x1 fr + frame_width fr
      /\ 0 < baseline
      /\ baseline < y1 fr.
Proof.
  intros hp w w' path s Hc.
  exists {| doc := doc_of path; flowables := story_of hp w (DATA s) |},
         (final hp w s).
  do 9 eexists.
  split; [now apply build_pdf_returns|].
  split; [reflexivity|]. split; [reflexivity|]. split; [reflexivity|].
  split; [|split]; vm_compute; reflexivity.
Qed.

Lemma footer_is_drawn_in_the_bottom_margin_shipped :
  complete (DATA (initial Shipped.DATA)) = true
  /\ exists b s' pt,
      build_pdf None bare_world OUTPUT_PDF (initial Shipped.DATA)
      = Returns b s'
      /\ pageTemplates (doc b) = [pt]
      /\ length (onPage pt bare_world) = 6%nat.
Proof.
  split; [reflexivity|].
  destruct (footer_is_drawn_in_the_bottom_margin None bare_world bare_world
              OUTPUT_PDF (initial Shipped.DATA) eq_refl)
    as (b & s' & pt & fr & font & size & colour & baseline & rx & lt & rt
        & Hrun & Hpt & _ & Hops & _).
  exists b, s', pt. split; [exact Hrun|]. split; [exact Hpt|].
  now rewrite Hops.
Defined.

(* ------------------------------------------------------------------ *)
(** ** The size and the shape of a story *)

Lemma length_job_blocks (j : Job) :
  length (job_blocks j) = (2 + length (get_default j bullets []))%nat.
Proof.
  unfold job_blocks. cbn [length]. rewrite length_app, length_map.
  cbn [length]. generalize (length (get_default j bullets [])). intros n. lia.
Qed.

Lemma length_experience_blocks (jobs : list Job) :
  length (flat_map job_blocks jobs)
  = list_sum (map (fun j => (2 + length (get_default j bullets []))%nat) jobs).
Proof.
  induction jobs as [|j jobs IH]; [reflexivity|].
  cbn [flat_map map list_sum]. now rewrite length_app, length_job_blocks, IH.
Qed.

Lemma length_summary_blocks (d : CV) :
  length (summary_blocks d) = if truthy (summary d) then 3%nat else 0%nat.
Proof. unfold summary_blocks. now destruct (summary d) as [[|c sm]|]. Qed.

Lemma filter_kind_job_blocks (p : Flowable -> bool) (jobs : list Job) :
  p (Spacer 1 (1 * mm)) = false ->
  (forall t st, p (Paragraph t st) = false) ->
  filter p (flat_map job_blocks jobs) = [].
Proof.
  intros Hs Hp. induction jobs as [|j jobs IH]; [reflexivity|].
  cbn [flat_map]. rewrite filter_app, IH, app_nil_r.
  unfold job_blocks, job_heading. cbn [filter]. rewrite Hp, filter_app.
  cbn [filter]. rewrite Hs, app_nil_r.
  induction (get_default j bullets []) as [|b bs IHb]; [reflexivity|].
  cbn [map filter]. unfold bullet_block at 1. now rewrite Hp.
Qed.

Lemma tables_story_of (hp : option string) (w : World) (d : CV) :
  filter is_table (story_of hp w d) = [header_row hp w d; two_col d].
Proof.
  unfold story_of. rewrite !filter_app.
  rewrite filter_kind_job_blocks by reflexivity.
  unfold summary_blocks. now destruct (summary d) as [[|c sm]|].
Qed.

Lemma kinds_job_blocks (jobs : list Job) :
  forallb (fun f => is_spacer f || is_paragraph f)
          (flat_map job_blocks jobs) = true.
Proof.
  induction jobs as [|j jobs IH]; [reflexivity|].
  cbn [flat_map]. rewrite forallb_app, IH, andb_true_r.
  unfold job_blocks, job_heading. cbn [forallb is_spacer is_paragraph orb andb].
  rewrite forallb_app. cbn.
  rewrite andb_true_r.
  induction (get_default j bullets []) as [|b bs IHb]; [reflexivity|exact IHb].
Qed.

(** X10. When the build returns, its story has 7 blocks, plus 3 if the
    summary is present and non-empty, plus 2 and the number of its bullets
    for every experience entry.  Exactly two of them are tables, the header
    row that opens the story and the two-column table that is third from
    its end; every other block is a spacer or a paragraph, so no image and
    no [KeepInFrame] stands in the story itself. *)
Theorem story_size_and_shape :
  forall (hp : option string) (w : World) (path : string) (s : State),
    complete (DATA s) = true ->
    exists b s' jobs before,
      build_pdf hp w path s = Returns b s'
      /\ experience (DATA s) = Some jobs
      /\ length (flowables b)
         = (7 + (if truthy (summary (DATA s)) then 3 else 0)
            + list_sum (map (fun j => 2 + length (get_default j bullets []))
                            jobs))%nat
      /\ filter is_table (flowables b)
         = [header_row hp w (DATA s); two_col (DATA s)]
      /\ flowables b
         = header_row hp w (DATA s)
           :: before
           ++ [two_col (DATA s); Spacer 1 (6 * mm); closing_note]
      /\ forallb (fun f => is_spacer f || is_paragraph f) before = true.
Proof.
  intros hp w path s Hc.
  destruct (complete_inv _ Hc)
    as (nm & ti & jobs & te & ed & la & pr
        & Hnm & Hti & Hex & Hjobs & Hte & Hed & Hla & Hpr).
  exists {| doc := doc_of path; flowables := story_of hp w (DATA s) |},
         (final hp w s), jobs,
         ([Spacer 1 (6 * mm)] ++ summary_blocks (DATA s)
          ++ [Paragraph "Experience" H2Accent]
          ++ flat_map job_blocks jobs ++ [Spacer 1 (4 * mm)]).
  split; [now apply build_pdf_returns|].
  split; [exact Hex|]. cbn [flowables].
  split; [|split; [apply tables_story_of|split]].
  - unfold story_of.
    replace (get_default (DATA s) experience []) with jobs
      by (unfold get_default; now rewrite Hex).
    rewrite !length_app, length_summary_blocks, length_experience_blocks.
    cbn [length].
    generalize (list_sum (map (fun j => (2 + length (get_default j bullets []))%nat)
                              jobs)).
    intros n. destruct (truthy (summary (DATA s))); lia.
  - unfold story_of, get_default. rewrite Hex. cbn [app].
    do 2 f_equal. rewrite <- !app_assoc. cbn [app].
    rewrite <- !app_assoc. reflexivity.
  - rewrite !forallb_app, kinds_job_blocks.
    unfold summary_blocks. now destruct (summary (DATA s)) as [[|c sm]|].
Qed.

Lemma story_size_and_shape_required_only :
  complete (DATA (initial required_only)) = true
  /\ exists b s',
      build_pdf None bare_world OUTPUT_PDF (initial required_only)
      = Returns b s'
      /\ length (flowables b) = 9%nat
      /\ length (filter is_table (flowables b)) = 2%nat.
Proof.
  split; [reflexivity|].
  destruct (story_size_and_shape None bare_world OUTPUT_PDF
              (initial required_only) eq_refl)
    as (b & s' & jobs & before & Hrun & Hjobs & Hlen & Htab & _).
  exists b, s'. split; [exact Hrun|].
  rewrite Hlen, Htab. injection Hjobs as <-. split; reflexivity.
Defined.

(** X11. When the summary is present and non-empty and the build returns,
    the story continues after the header row and its spacer with the
    "Summary" heading, the summary as one paragraph of the body style and
    a three-millimetre spacer, and only then with the "Experience"
    heading. *)
Theorem present_summary_emits_three_blocks :
  forall (hp : option string) (w : World) (path : string) (s : State)
         (sm : string),
    complete (DATA s) = true ->
    summary (DATA s) = Some sm ->
    str_truthy sm = true ->
    exists b s' hdr rest,
      build_pdf hp w path s = Returns b s'
      /\ flowables b
         = hdr :: Spacer 1 (6 * mm)
           :: Paragraph "Summary" H2Accent
           :: Paragraph sm BodyMain
           :: Spacer 1 (3 * mm)
           :: Paragraph "Experience" H2Accent
           :: rest
      /\ section_headings (flowables b)
         = ["Summary"; "Experience"; "Technical"; "Education"; "Languages";
            "Data Providers"].
Proof.
  intros hp w path s sm Hc Hsm Ht.
  exists {| doc := doc_of path; flowables := story_of hp w (DATA s) |},
         (final hp w s), (header_row hp w (DATA s)).
  eexists. split; [now apply build_pdf_returns|].
  cbn [flowables]. split.
  - unfold story_of, summary_blocks, present. rewrite Hsm, Ht. reflexivity.
  - rewrite section_headings_story_of. unfold truthy. now rewrite Hsm, Ht.
Qed.

Lemma present_summary_emits_three_blocks_shipped :
  complete (DATA (initial Shipped.DATA)) = true
  /\ exists b s' sm,
      build_pdf None bare_world OUTPUT_PDF (initial Shipped.DATA)
      = Returns b s'
      /\ summary (DATA (initial Shipped.DATA)) = Some sm
      /\ str_truthy sm = true
      /\ nth_error (flowables b) 3 = Some (Paragraph sm BodyMain)
      /\ nth_error (flowables b) 5 = Some (Paragraph "Experience" H2Accent).
Proof.
  split; [reflexivity|].
  destruct (summary (DATA (initial Shipped.DATA))) as [sm|] eqn:Hsm;
    [|discriminate Hsm].
  assert (Ht : str_truthy sm = true) by (injection Hsm as <-; reflexivity).
  destruct (@present_summary_emits_three_blocks None bare_world OUTPUT_PDF
              (initial Shipped.DATA) sm eq_refl Hsm Ht)
    as (b & s' & hdr & rest & Hrun & Hshape & _).
  exists b, s', sm. split; [exact Hrun|]. split; [reflexivity|].
  split; [exact Ht|]. rewrite Hshape. split; reflexivity.
Defined.
